(** * The generic applier of pkg/common/apply/interface.go

    A shallow embedding of [applier.Apply]: the get / compare / create /
    update sequence is written in a small state monad whose state holds the
    world behind the collaborators (lister cache, API server, event sink)
    together with the log of the collaborator calls made so far.  The log is
    what statements such as "Create is called exactly once" are about. *)

From Stdlib Require Import String List Bool Arith Lia.
Import ListNotations.
Local Open Scope string_scope.
Local Open Scope list_scope.

(** ** Go values used by the package *)

(** schema.GroupVersionKind *)
Record GroupVersionKind : Type := mkGVK {
  Group : string;
  Version : string;
  Kind : string
}.

(** The part of metav1.Object that Apply uses. *)
Record metav1_Object : Type := mkAccessor {
  GetName : string
}.

(** metav1.CreateOptions{} and metav1.UpdateOptions{}: Apply only ever
    passes the empty struct. *)
Inductive metav1_CreateOptions : Type := CreateOptions_empty.
Inductive metav1_UpdateOptions : Type := UpdateOptions_empty.

(** fmt.Sprintf("%sSuffix", kind) for a string [kind]. *)
Definition Sprintf_reason (kind suffix : string) : string := kind ++ suffix.

(** The character '\n' of the "Updated" message format. *)
Definition newline : string := String (Ascii.ascii_of_nat 10) EmptyString.

Section Applier.

(** [T runtime.Object]: the resource type the applier is instantiated at. *)
Variable T : Type.
(** Non-nil values of Go's [error]; [error] itself is [option Err] and
    [None] is [nil]. *)
Variable Err : Type.
(** context.Context *)
Variable Context : Type.
(** Whatever lives behind the collaborators. *)
Variable World : Type.

Definition error : Type := option Err.

(** The value returned as [runtime.Object]: the nil interface ([None], the
    literal nil of the first return) or an interface holding a [T]. *)
Definition runtime_Object : Type := option T.

(** *** Library functions Apply depends on *)

(** errors.IsNotFound, errors.IsAlreadyExists (k8s.io/apimachinery). *)
Variable IsNotFound : error -> bool.
Variable IsAlreadyExists : error -> bool.
(** meta.Accessor: an accessor, or the error saying the value is no object. *)
Variable meta_Accessor : T -> metav1_Object + Err.
(** resourcehelper.GuessObjectGroupVersionKind *)
Variable GuessObjectGroupVersionKind : T -> GroupVersionKind.
(** resourcehelper.FormatResourceForCLIWithNamespace *)
Variable FormatResourceForCLIWithNamespace : T -> string.

(** *** Collaborator interfaces *)

(** Getter is a wrapper interface of lister *)
Record Getter : Type := mkGetter {
  Get : string -> World -> (T * error) * World
}.

(** Client is a wrapper interface of client *)
Record Client : Type := mkClient {
  Create : Context -> T -> metav1_CreateOptions -> World -> (T * error) * World;
  Update : Context -> T -> metav1_UpdateOptions -> World -> (T * error) * World
}.

(** CompareFunc compares required and existing, returns the updated
    required and whether updated is needed.  A function value, taken here as
    a function of its two arguments alone; its invocation is logged by
    [call_compare]. *)
Definition CompareFunc : Type := T -> T -> T * bool.

(** Variadic arguments handed to the recorder. *)
Inductive Arg : Type :=
| ArgString (s : string)
| ArgError (e : error).

(** events.Recorder, restricted to the two methods used. *)
Record Recorder : Type := mkRecorder {
  Eventf : string -> string -> list Arg -> World -> World;
  Warningf : string -> string -> list Arg -> World -> World
}.

(** applier implements Applier *)
Record applier : Type := mkApplier {
  getter : Getter;
  client : Client;
  compare : CompareFunc
}.

Definition NewApplier (g : Getter) (c : Client) (compareFunc : CompareFunc) : applier :=
  {| getter := g; client := c; compare := compareFunc |}.

(** *** Call log and the monad *)

Inductive Call : Type :=
| CallGet (name : string)
| CallCreate (obj : T)
| CallUpdate (obj : T)
| CallCompare (required existing : T)
| CallEventf (reason messageFmt : string) (args : list Arg)
| CallWarningf (reason messageFmt : string) (args : list Arg).

Record St : Type := mkSt {
  world : World;
  calls : list Call
}.

Definition M (A : Type) : Type := St -> A * St.

Definition ret {A : Type} (a : A) : M A := fun s => (a, s).

Definition bind {A B : Type} (m : M A) (k : A -> M B) : M B :=
  fun s => let (a, s1) := m s in k a s1.

Definition logged (c : Call) (s : St) (w : World) : St :=
  {| world := w; calls := calls s ++ [c] |}.

Definition call_Get (g : Getter) (name : string) : M (T * error) :=
  fun s => let (r, w) := Get g name (world s) in (r, logged (CallGet name) s w).

Definition call_Create (c : Client) (ctx : Context) (obj : T)
    (opts : metav1_CreateOptions) : M (T * error) :=
  fun s => let (r, w) := Create c ctx obj opts (world s) in
           (r, logged (CallCreate obj) s w).

Definition call_Update (c : Client) (ctx : Context) (obj : T)
    (opts : metav1_UpdateOptions) : M (T * error) :=
  fun s => let (r, w) := Update c ctx obj opts (world s) in
           (r, logged (CallUpdate obj) s w).

Definition call_compare (f : CompareFunc) (required existing : T) : M (T * bool) :=
  fun s => (f required existing, logged (CallCompare required existing) s (world s)).

Definition call_Eventf (r : Recorder) (reason messageFmt : string)
    (args : list Arg) : M unit :=
  fun s => (tt, logged (CallEventf reason messageFmt args) s
                       (Eventf r reason messageFmt args (world s))).

Definition call_Warningf (r : Recorder) (reason messageFmt : string)
    (args : list Arg) : M unit :=
  fun s => (tt, logged (CallWarningf reason messageFmt args) s
                       (Warningf r reason messageFmt args (world s))).

Notation "x <- m ;; k" := (bind m (fun x => k))
  (at level 61, m at next level, right associativity).
Notation "' p <- m ;; k" := (bind m (fun x => let p := x in k))
  (at level 61, p pattern, m at next level, right associativity).
Notation "m ;;; k" := (bind m (fun _ => k))
  (at level 61, right associativity).

(** *** applier.Apply

    Branch for branch as in the source.  The error of the fetch is looked at
    by [IsNotFound] only; the error of Update replaces it.  A panic inside a
    collaborator is outside the model. *)

Definition Apply (a : applier) (ctx : Context) (required : T)
    (recorder : Recorder) : M (runtime_Object * bool * error) :=
  match meta_Accessor required with
  | inr err => ret (None, false, Some err)
  | inl requiredAccessor =>
    let gvk := GuessObjectGroupVersionKind required in
    '(existing, err) <- call_Get (getter a) (GetName requiredAccessor) ;;
    if IsNotFound err then
      '(actual, createErr) <- call_Create (client a) ctx required CreateOptions_empty ;;
      if IsAlreadyExists createErr then
        ret (Some required, false, None)
      else
        match createErr with
        | None =>
          call_Eventf recorder (Sprintf_reason (Kind gvk) "Created")
            "Created %s because it was missing"
            [ArgString (FormatResourceForCLIWithNamespace actual)]
        | Some _ =>
          call_Warningf recorder (Sprintf_reason (Kind gvk) "CreateFailed")
            "Failed to create %s: %v"
            [ArgString (FormatResourceForCLIWithNamespace required);
             ArgError createErr]
        end ;;;
        ret (Some actual, true, createErr)
    else
      '(updated, modified) <- call_compare (compare a) required existing ;;
      if negb modified then
        ret (Some updated, modified, None)
      else
        '(updated', err') <- call_Update (client a) ctx updated UpdateOptions_empty ;;
        match err' with
        | Some _ =>
          call_Warningf recorder (Sprintf_reason (Kind gvk) "UpdateFailed")
            "Failed to update %s: %v"
            [ArgString (FormatResourceForCLIWithNamespace required);
             ArgError err']
        | None =>
          call_Eventf recorder (Sprintf_reason (Kind gvk) "Updated")
            ("Updated %s:" ++ newline ++ "%s")
            [ArgString (FormatResourceForCLIWithNamespace updated')]
        end ;;;
        ret (Some updated', modified, err')
  end.

(** *** Reading the call log *)

Definition is_Get (c : Call) : bool :=
  match c with CallGet _ => true | _ => false end.
Definition is_Create (c : Call) : bool :=
  match c with CallCreate _ => true | _ => false end.
Definition is_Update (c : Call) : bool :=
  match c with CallUpdate _ => true | _ => false end.
Definition is_compare (c : Call) : bool :=
  match c with CallCompare _ _ => true | _ => false end.
Definition is_notification (c : Call) : bool :=
  match c with CallEventf _ _ _ | CallWarningf _ _ _ => true | _ => false end.

(** How many calls of one kind a log holds. *)
Definition invocations (p : Call -> bool) (l : list Call) : nat :=
  length (filter p l).

(** The contract the package comment and the data model put on a
    comparison function: when it reports no change, what it hands back is
    the existing object. *)
Definition compare_contract (f : CompareFunc) : Prop :=
  forall required existing merged,
    f required existing = (merged, false) -> merged = existing.

(** The create-failure sentence read literally: on a not-found fetch
    followed by a Create error other than already-exists, the object
    returned is nil. *)
Definition create_failure_returns_nil (a : applier) (ctx : Context)
    (required : T) (recorder : Recorder) (s : St) : Prop :=
  forall acc existing err w1 actual createErr w2,
    meta_Accessor required = inl acc ->
    Get (getter a) (GetName acc) (world s) = ((existing, err), w1) ->
    IsNotFound err = true ->
    Create (client a) ctx required CreateOptions_empty w1
      = ((actual, createErr), w2) ->
    createErr <> None ->
    IsAlreadyExists createErr = false ->
    fst (fst (fst (Apply a ctx required recorder s))) = None.

(** The fetch-error sentence read literally: a fetch error that is neither
    nil nor not-found comes back as Apply's error, and neither Create nor
    the comparison function runs. *)
Definition fetch_error_returned_verbatim (a : applier) (ctx : Context)
    (required : T) (recorder : Recorder) (s : St) : Prop :=
  forall acc existing err w1,
    meta_Accessor required = inl acc ->
    Get (getter a) (GetName acc) (world s) = ((existing, err), w1) ->
    err <> None ->
    IsNotFound err = false ->
    snd (fst (Apply a ctx required recorder s)) = err /\
    invocations is_Create (calls (snd (Apply a ctx required recorder s))) 
      = invocations is_Create (calls s) /\
    invocations is_compare (calls (snd (Apply a ctx required recorder s)))
      = invocations is_compare (calls s).

End Applier.

Arguments Get {T Err World}.
Arguments Create {T Err Context World}.
Arguments Update {T Err Context World}.
Arguments Eventf {Err World}.
Arguments Warningf {Err World}.
Arguments getter {T Err Context World}.
Arguments client {T Err Context World}.
Arguments compare {T Err Context World}.
Arguments world {T Err World}.
Arguments calls {T Err World}.
Arguments mkSt {T Err World}.
Arguments CallGet {T Err}.
Arguments CallCreate {T Err}.
Arguments CallUpdate {T Err}.
Arguments CallCompare {T Err}.
Arguments CallEventf {T Err}.
Arguments CallWarningf {T Err}.
Arguments ArgString {Err}.
Arguments ArgError {Err}.
Arguments is_Get {T Err}.
Arguments is_Create {T Err}.
Arguments is_Update {T Err}.
Arguments is_compare {T Err}.
Arguments is_notification {T Err}.
Arguments invocations {T Err}.
Arguments compare_contract {T}.
Arguments Apply {T Err Context World}.
Arguments create_failure_returns_nil {T Err Context World}.
Arguments fetch_error_returned_verbatim {T Err Context World}.

(** ** A concrete instance: config maps behind a lister cache and an API server

    The applier is instantiated at the interface type [runtime.Object]
    itself, with a getter backed by a local cache, a second getter that reads
    the server directly, and a client that behaves like a generated typed
    client: on failure it hands back the empty result object together with
    the error. *)

Module Demo.

(** Values of [runtime.Object]. *)
Inductive Object : Type :=
| nilObject
| ConfigMap (name : string) (data : nat)
| Unknown (raw : string).

Inductive StatusReason : Type :=
| StatusReasonUnknown
| StatusReasonNotFound
| StatusReasonAlreadyExists
| StatusReasonInternalError.

Inductive Err : Type :=
| StatusError (reason : StatusReason)
| errNotObject.

Definition ReasonForError (e : option Err) : StatusReason :=
  match e with
  | Some (StatusError r) => r
  | _ => StatusReasonUnknown
  end.

Definition IsNotFound (e : option Err) : bool :=
  match ReasonForError e with StatusReasonNotFound => true | _ => false end.

Definition IsAlreadyExists (e : option Err) : bool :=
  match ReasonForError e with StatusReasonAlreadyExists => true | _ => false end.

Definition meta_Accessor (o : Object) : metav1_Object + Err :=
  match o with
  | ConfigMap n _ => inl (mkAccessor n)
  | _ => inr errNotObject
  end.

Definition GuessObjectGroupVersionKind (o : Object) : GroupVersionKind :=
  match o with
  | ConfigMap _ _ => mkGVK "" "v1" "ConfigMap"
  | _ => mkGVK "" "" ""
  end.

Definition nameOf (o : Object) : string :=
  match o with ConfigMap n _ => n | _ => "" end.

Definition FormatResourceForCLIWithNamespace (o : Object) : string :=
  "configmap/" ++ nameOf o.

Record World : Type := mkWorld {
  cache : list Object;
  server : list Object;
  down : bool;
  events : list (string * string)
}.

Fixpoint lookup (name : string) (l : list Object) : option Object :=
  match l with
  | [] => None
  | o :: rest => if String.eqb (nameOf o) name then Some o else lookup name rest
  end.

Fixpoint replace (o : Object) (l : list Object) : list Object :=
  match l with
  | [] => []
  | x :: rest =>
    if String.eqb (nameOf x) (nameOf o) then o :: rest else x :: replace o rest
  end.

Definition emptyResult : Object := ConfigMap "" 0.

Definition internalError : option Err := Some (StatusError StatusReasonInternalError).
Definition notFound : option Err := Some (StatusError StatusReasonNotFound).
Definition alreadyExists : option Err := Some (StatusError StatusReasonAlreadyExists).

(** A lister: reads the cache, never fails except with not-found. *)
Definition cacheGetter : Getter Object Err World :=
  {| Get := fun name w =>
       match lookup name (cache w) with
       | Some o => ((o, None), w)
       | None => ((nilObject, notFound), w)
       end |}.

(** A getter wrapping a live read of the server. *)
Definition liveGetter : Getter Object Err World :=
  {| Get := fun name w =>
       if down w then ((emptyResult, internalError), w)
       else match lookup name (server w) with
            | Some o => ((o, None), w)
            | None => ((emptyResult, notFound), w)
            end |}.

Definition apiClient : Client Object Err unit World :=
  {| Create := fun _ o _ w =>
       if down w then ((emptyResult, internalError), w)
       else match lookup (nameOf o) (server w) with
            | Some _ => ((emptyResult, alreadyExists), w)
            | None =>
              ((o, None),
               mkWorld (cache w) (server w ++ [o]) (down w) (events w))
            end;
     Update := fun _ o _ w =>
       if down w then ((emptyResult, internalError), w)
       else match lookup (nameOf o) (server w) with
            | Some _ =>
              ((o, None),
               mkWorld (cache w) (replace o (server w)) (down w) (events w))
            | None => ((emptyResult, notFound), w)
            end |}.

(** Keeps the existing object unless the data differ. *)
Definition compareData : CompareFunc Object :=
  fun required existing =>
    match required, existing with
    | ConfigMap _ d, ConfigMap n e =>
      if Nat.eqb d e then (existing, false) else (ConfigMap n d, true)
    | _, _ => (existing, false)
    end.

Definition recorder : Recorder Err World :=
  {| Eventf := fun reason _ _ w =>
       mkWorld (cache w) (server w) (down w) (events w ++ [("Normal", reason)]);
     Warningf := fun reason _ _ w =>
       mkWorld (cache w) (server w) (down w) (events w ++ [("Warning", reason)]) |}.

Definition cachedApplier : applier Object Err unit World :=
  NewApplier _ _ _ _ cacheGetter apiClient compareData.

Definition liveApplier : applier Object Err unit World :=
  NewApplier _ _ _ _ liveGetter apiClient compareData.

(** Apply with the library functions and the recorder of this instance. *)
Definition run (a : applier Object Err unit World) (required : Object)
    (s : St Object Err World)
    : (option Object * bool * option Err) * St Object Err World :=
  Apply IsNotFound IsAlreadyExists meta_Accessor
    GuessObjectGroupVersionKind FormatResourceForCLIWithNamespace
    a tt required recorder s.

Definition start (c sv : list Object) (d : bool) : St Object Err World :=
  mkSt (mkWorld c sv d []) [].

End Demo.

(** ** Reading a finished run *)

Section RunReading.

Context {T Err World : Type}.

(** The three results of Apply and the state it leaves. *)
Definition result_object (r : (option T * bool * option Err) * St T Err World)
    : option T := fst (fst (fst r)).
Definition result_changed (r : (option T * bool * option Err) * St T Err World)
    : bool := snd (fst (fst r)).
Definition result_error (r : (option T * bool * option Err) * St T Err World)
    : option Err := snd (fst r).
Definition final_state (r : (option T * bool * option Err) * St T Err World)
    : St T Err World := snd r.

Definition is_Eventf (c : Call T Err) : bool :=
  match c with CallEventf _ _ _ => true | _ => false end.
Definition is_Warningf (c : Call T Err) : bool :=
  match c with CallWarningf _ _ _ => true | _ => false end.

(** The call sequences of the paths through Apply, by kind of call. *)
Definition trace_shape (l : list (Call T Err)) : bool :=
  match l with
  | [] => true
  | [CallGet _; CallCreate _] => true
  | [CallGet _; CallCreate _; CallEventf _ _ _] => true
  | [CallGet _; CallCreate _; CallWarningf _ _ _] => true
  | [CallGet _; CallCompare _ _] => true
  | [CallGet _; CallCompare _ _; CallUpdate _; CallEventf _ _ _] => true
  | [CallGet _; CallCompare _ _; CallUpdate _; CallWarningf _ _ _] => true
  | _ => false
  end.

(** What Apply may hand to its collaborators, given the required object and
    what the fetch and the comparison produced. *)
Definition call_arguments_from (required existing merged : T) (name : string)
    (c : Call T Err) : Prop :=
  match c with
  | CallGet n => n = name
  | CallCreate o => o = required
  | CallCompare r e => r = required /\ e = existing
  | CallUpdate o => o = merged
  | CallEventf _ _ _ | CallWarningf _ _ _ => True
  end.

End RunReading.

(** A notification that agrees with what Apply returned: its reason is the
    kind followed by the outcome; a warning names the required object and
    carries the returned error, a normal event names the returned object. *)
Definition notification_matches_result {T Err : Type} (kind : string)
    (format : T -> string) (required : T) (obj : option T)
    (err : option Err) (c : Call T Err) : Prop :=
  match c with
  | CallWarningf reason _ args =>
    (reason = (kind ++ "CreateFailed")%string \/ reason = (kind ++ "UpdateFailed")%string) /\
    err <> None /\
    args = [ArgString (format required); ArgError err]
  | CallEventf reason _ args =>
    (reason = (kind ++ "Created")%string \/ reason = (kind ++ "Updated")%string) /\
    err = None /\
    exists o, obj = Some o /\ args = [ArgString (format o)]
  | _ => True
  end.

(** Number of '%' characters of a format.  None of the formats Apply uses
    escapes a '%', so this is their number of verbs. *)
Fixpoint percent_count (fmt : string) : nat :=
  match fmt with
  | EmptyString => 0
  | String c rest =>
    (if Ascii.eqb c (Ascii.ascii_of_nat 37) then 1 else 0) + percent_count rest
  end.

(** A notification whose format has as many verbs as it is given arguments. *)
Definition verbs_match_args {T Err : Type} (c : Call T Err) : bool :=
  match c with
  | CallEventf _ fmt args | CallWarningf _ fmt args =>
    Nat.eqb (percent_count fmt) (length args)
  | _ => true
  end.

(** ** Properties of Apply, for every instantiation *)

Section ApplySpec.

Context {T Err Ctx World : Type}.
Variable IsNotFound : option Err -> bool.
Variable IsAlreadyExists : option Err -> bool.
Variable meta_Accessor : T -> metav1_Object + Err.
Variable GuessObjectGroupVersionKind : T -> GroupVersionKind.
Variable FormatResourceForCLIWithNamespace : T -> string.

(** Both classifiers answer false on the nil error. *)
Hypothesis IsNotFound_nil : IsNotFound None = false.
Hypothesis IsAlreadyExists_nil : IsAlreadyExists None = false.

Local Abbreviation ApplyG :=
  (Apply (T:=T) (Err:=Err) (Context:=Ctx) (World:=World)
     IsNotFound IsAlreadyExists meta_Accessor
     GuessObjectGroupVersionKind FormatResourceForCLIWithNamespace).
Local Abbreviation KindOf x := (Kind (GuessObjectGroupVersionKind x)).
Local Abbreviation Format := FormatResourceForCLIWithNamespace.

Implicit Types (a : applier T Err Ctx World) (ctx : Ctx) (required : T)
  (recorder : Recorder Err World) (s : St T Err World).

(** Steps through the monadic code of Apply. *)
Ltac step_apply :=
  unfold Apply, bind, ret, call_Get, call_Create, call_Update, call_compare,
    call_Eventf, call_Warningf, logged, Sprintf_reason; simpl.

(** Uses a hypothesis about what a collaborator or classifier answered. *)
Ltac answer H := rewrite H; simpl.

Ltac flatten_log := rewrite <- ?app_assoc; simpl.

(** C10: when meta.Accessor fails on the required object, Apply returns
    the nil object, changed=false and that error, and the state is left as
    it was: no Get, Create, Update, compare or recorder call is logged and
    the world is untouched. *)
Theorem Apply_accessor_error a ctx required recorder s err :
  meta_Accessor required = inr err ->
  ApplyG a ctx required recorder s = ((None, false, Some err), s).
Proof.
  intros Hacc. step_apply. answer Hacc. reflexivity.
Qed.

(** C2: when the fetch reports not-found, Create is called exactly once,
    with the required object, whatever Create answers; and when Create
    succeeds Apply logs Get, Create and one <Kind>Created event, and returns
    the created object, changed=true and the nil error. *)
Theorem Apply_not_found_creates_once
    a ctx required recorder s acc existing err w1 actual createErr w2 :
  meta_Accessor required = inl acc ->
  Get (getter a) (GetName acc) (world s) = ((existing, err), w1) ->
  IsNotFound err = true ->
  Create (client a) ctx required CreateOptions_empty w1
    = ((actual, createErr), w2) ->
  (exists new,
      calls (snd (ApplyG a ctx required recorder s)) = calls s ++ new /\
      filter is_Create new = [CallCreate required]) /\
  (createErr = None ->
   ApplyG a ctx required recorder s =
     ((Some actual, true, None),
      mkSt (Eventf recorder (KindOf required ++ "Created")
              "Created %s because it was missing"
              [ArgString (Format actual)] w2)
           (calls s ++ [CallGet (GetName acc); CallCreate required;
                        CallEventf (KindOf required ++ "Created")
                          "Created %s because it was missing"
                          [ArgString (Format actual)]]))).
Proof.
  intros Hacc Hget Hnf Hcreate. split.
  - step_apply. answer Hacc. answer Hget. answer Hnf. answer Hcreate.
    destruct (IsAlreadyExists createErr); [| destruct createErr]; simpl;
      eexists; (split; [flatten_log; reflexivity | reflexivity]).
  - intros ->. step_apply. answer Hacc. answer Hget. answer Hnf.
    answer Hcreate. answer IsAlreadyExists_nil. flatten_log. reflexivity.
Qed.

(** C3: when the fetch reports not-found and Create fails with
    already-exists, Apply returns the required object, changed=false and
    the nil error; the log gains Get and Create only, so no notification is
    emitted, and the world is the one Create left. *)
Theorem Apply_create_already_exists
    a ctx required recorder s acc existing err w1 actual createErr w2 :
  meta_Accessor required = inl acc ->
  Get (getter a) (GetName acc) (world s) = ((existing, err), w1) ->
  IsNotFound err = true ->
  Create (client a) ctx required CreateOptions_empty w1
    = ((actual, createErr), w2) ->
  IsAlreadyExists createErr = true ->
  ApplyG a ctx required recorder s =
    ((Some required, false, None),
     mkSt w2 (calls s ++ [CallGet (GetName acc); CallCreate required])).
Proof.
  intros Hacc Hget Hnf Hcreate Hae.
  step_apply. answer Hacc. answer Hget. answer Hnf. answer Hcreate.
  answer Hae. flatten_log. reflexivity.
Qed.

(** C4, amended: when the fetch reports not-found and Create fails with an
    error other than already-exists, Apply emits a <Kind>CreateFailed
    warning and returns the object Create handed back with its error,
    changed=true, and the create error. *)
Theorem Apply_create_failed
    a ctx required recorder s acc existing err w1 actual e w2 :
  meta_Accessor required = inl acc ->
  Get (getter a) (GetName acc) (world s) = ((existing, err), w1) ->
  IsNotFound err = true ->
  Create (client a) ctx required CreateOptions_empty w1
    = ((actual, Some e), w2) ->
  IsAlreadyExists (Some e) = false ->
  ApplyG a ctx required recorder s =
    ((Some actual, true, Some e),
     mkSt (Warningf recorder (KindOf required ++ "CreateFailed")
             "Failed to create %s: %v"
             [ArgString (Format required); ArgError (Some e)] w2)
          (calls s ++ [CallGet (GetName acc); CallCreate required;
                       CallWarningf (KindOf required ++ "CreateFailed")
                         "Failed to create %s: %v"
                         [ArgString (Format required); ArgError (Some e)]])).
Proof.
  intros Hacc Hget Hnf Hcreate Hae.
  step_apply. answer Hacc. answer Hget. answer Hnf. answer Hcreate.
  answer Hae. flatten_log. reflexivity.
Qed.

(** The unchanged branch, for any fetch that is not classified as
    not-found. *)
Lemma Apply_unchanged_branch
    a ctx required recorder s acc existing err w1 merged :
  meta_Accessor required = inl acc ->
  Get (getter a) (GetName acc) (world s) = ((existing, err), w1) ->
  IsNotFound err = false ->
  compare a required existing = (merged, false) ->
  ApplyG a ctx required recorder s =
    ((Some merged, false, None),
     mkSt w1 (calls s ++ [CallGet (GetName acc);
                          CallCompare required existing])).
Proof.
  intros Hacc Hget Hnf Hcmp.
  step_apply. answer Hacc. answer Hget. answer Hnf. answer Hcmp.
  flatten_log. reflexivity.
Qed.

(** C5: when the getter returns an existing object and the comparison
    function reports no change, Apply returns the merged result,
    changed=false and the nil error; the log gains Get and compare only, so
    neither Create nor Update is called, and the world is the one Get
    left. *)
Theorem Apply_found_unchanged
    a ctx required recorder s acc existing w1 merged :
  meta_Accessor required = inl acc ->
  Get (getter a) (GetName acc) (world s) = ((existing, None), w1) ->
  compare a required existing = (merged, false) ->
  ApplyG a ctx required recorder s =
    ((Some merged, false, None),
     mkSt w1 (calls s ++ [CallGet (GetName acc);
                          CallCompare required existing])).
Proof.
  intros Hacc Hget Hcmp.
  exact (Apply_unchanged_branch a ctx required recorder s acc existing None
           w1 merged Hacc Hget IsNotFound_nil Hcmp).
Qed.

(** C6: when the getter returns an existing object and the comparison
    function reports a change, Update is called exactly once, with the
    merged object, whatever Update answers; and when Update succeeds Apply
    logs Get, compare, Update and one <Kind>Updated event, and returns the
    updated object, changed=true and the nil error. *)
Theorem Apply_found_changed_updates_once
    a ctx required recorder s acc existing w1 merged updated updateErr w2 :
  meta_Accessor required = inl acc ->
  Get (getter a) (GetName acc) (world s) = ((existing, None), w1) ->
  compare a required existing = (merged, true) ->
  Update (client a) ctx merged UpdateOptions_empty w1
    = ((updated, updateErr), w2) ->
  (exists new,
      calls (snd (ApplyG a ctx required recorder s)) = calls s ++ new /\
      filter is_Update new = [CallUpdate merged]) /\
  (updateErr = None ->
   ApplyG a ctx required recorder s =
     ((Some updated, true, None),
      mkSt (Eventf recorder (KindOf required ++ "Updated")
              ("Updated %s:" ++ newline ++ "%s")
              [ArgString (Format updated)] w2)
           (calls s ++ [CallGet (GetName acc);
                        CallCompare required existing;
                        CallUpdate merged;
                        CallEventf (KindOf required ++ "Updated")
                          ("Updated %s:" ++ newline ++ "%s")
                          [ArgString (Format updated)]]))).
Proof.
  intros Hacc Hget Hcmp Hupd. split.
  - step_apply. answer Hacc. answer Hget. answer IsNotFound_nil.
    answer Hcmp. answer Hupd.
    destruct updateErr; simpl;
      eexists; (split; [flatten_log; reflexivity | reflexivity]).
  - intros ->. step_apply. answer Hacc. answer Hget. answer IsNotFound_nil.
    answer Hcmp. answer Hupd. flatten_log. reflexivity.
Qed.

(** C7: when the comparison function reports a change and Update fails,
    Apply emits a <Kind>UpdateFailed warning and returns changed=true
    together with the update error (and the object Update handed back). *)
Theorem Apply_update_failed
    a ctx required recorder s acc existing err w1 merged updated e w2 :
  meta_Accessor required = inl acc ->
  Get (getter a) (GetName acc) (world s) = ((existing, err), w1) ->
  IsNotFound err = false ->
  compare a required existing = (merged, true) ->
  Update (client a) ctx merged UpdateOptions_empty w1
    = ((updated, Some e), w2) ->
  ApplyG a ctx required recorder s =
    ((Some updated, true, Some e),
     mkSt (Warningf recorder (KindOf required ++ "UpdateFailed")
             "Failed to update %s: %v"
             [ArgString (Format required); ArgError (Some e)] w2)
          (calls s ++ [CallGet (GetName acc);
                       CallCompare required existing;
                       CallUpdate merged;
                       CallWarningf (KindOf required ++ "UpdateFailed")
                         "Failed to update %s: %v"
                         [ArgString (Format required); ArgError (Some e)]])).
Proof.
  intros Hacc Hget Hnf Hcmp Hupd.
  step_apply. answer Hacc. answer Hget. answer Hnf. answer Hcmp.
  answer Hupd. flatten_log. reflexivity.
Qed.

(** C8: for a comparison function that keeps its contract (no change
    reported means the merged object is the existing one), whenever Apply
    goes down the found path and returns changed=false, the object it
    returns is the existing object the getter fetched. *)
Theorem Apply_unchanged_is_existing
    a ctx required recorder s acc existing err w1 obj retErr s' :
  compare_contract (compare a) ->
  meta_Accessor required = inl acc ->
  Get (getter a) (GetName acc) (world s) = ((existing, err), w1) ->
  IsNotFound err = false ->
  ApplyG a ctx required recorder s = ((obj, false, retErr), s') ->
  obj = Some existing.
Proof.
  intros Hcontract Hacc Hget Hnf.
  destruct (compare a required existing) as [merged modified] eqn:Hcmp.
  destruct modified.
  - step_apply. answer Hacc. answer Hget. answer Hnf. answer Hcmp.
    destruct (Update _ _ _ _ _) as [[updated updateErr] w2]; simpl.
    destruct updateErr; simpl; intros Hrun; discriminate Hrun.
  - rewrite (Apply_unchanged_branch a ctx required recorder s acc existing
               err w1 merged Hacc Hget Hnf Hcmp).
    intros Hrun. injection Hrun as <- _ _.
    f_equal. exact (Hcontract required existing merged Hcmp).
Qed.

(** C9: in one run of Apply the log gains at most one Get, at most one
    Create, at most one Update and at most one compare call, and never both
    a Create and an Update. *)
Theorem Apply_no_retries a ctx required recorder s :
  exists new,
    calls (snd (ApplyG a ctx required recorder s)) = calls s ++ new /\
    invocations is_Get new <= 1 /\
    invocations is_Create new <= 1 /\
    invocations is_Update new <= 1 /\
    invocations is_compare new <= 1 /\
    (invocations is_Create new = 0 \/ invocations is_Update new = 0).
Proof.
  step_apply.
  destruct (meta_Accessor required) as [acc | err]; simpl.
  - destruct (Get _ _ _) as [[existing err] w1]; simpl.
    destruct (IsNotFound err); simpl.
    + destruct (Create _ _ _ _ _) as [[actual createErr] w2]; simpl.
      destruct (IsAlreadyExists createErr); [| destruct createErr]; simpl;
        eexists; (split; [flatten_log; reflexivity |]);
        unfold invocations; simpl; repeat split; auto.
    + destruct (compare a required existing) as [merged modified]; simpl.
      destruct modified; simpl.
      * destruct (Update _ _ _ _ _) as [[updated updateErr] w2]; simpl.
        destruct updateErr; simpl;
          eexists; (split; [flatten_log; reflexivity |]);
          unfold invocations; simpl; repeat split; auto.
      * eexists; (split; [flatten_log; reflexivity |]);
          unfold invocations; simpl; repeat split; auto.
  - exists []. rewrite app_nil_r.
    unfold invocations; simpl; repeat split; auto.
Qed.

End ApplySpec.

(** ** The concrete instance: runs, and the two sentences that fail on it *)

Section DemoRuns.

Import Demo.

Local Abbreviation cfg n := (ConfigMap "cfg" n).
Local Abbreviation applyAt :=
  (Apply IsNotFound IsAlreadyExists meta_Accessor
     GuessObjectGroupVersionKind FormatResourceForCLIWithNamespace).

(** The comparison function of the instance keeps the contract. *)
Lemma compareData_contract : compare_contract compareData.
Proof.
  intros required existing merged.
  unfold compareData.
  destruct required as [| rn d | raw]; destruct existing as [| n e | raw'];
    try (intros H; injection H as <-; reflexivity).
  destruct (Nat.eqb d e); intros H; [injection H as <-; reflexivity | discriminate H].
Qed.

(** C1: the server is down and the live getter answers with an internal
    error, which is neither nil nor not-found.  Apply does not return it:
    it runs the comparison function on the empty result object and, the
    comparison reporting no change, returns that object with changed=false
    and the nil error.  So the fetch-error sentence, read literally, fails
    at this input. *)
Theorem Apply_swallows_fetch_error :
  Get (getter liveApplier) "cfg" (world (start [] [] true))
    = ((emptyResult, internalError), world (start [] [] true)) /\
  internalError <> None /\
  IsNotFound internalError = false /\
  run liveApplier (cfg 0) (start [] [] true)
    = ((Some emptyResult, false, None),
       mkSt (mkWorld [] [] true [])
            [CallGet "cfg"; CallCompare (cfg 0) emptyResult]) /\
  ~ fetch_error_returned_verbatim IsNotFound IsAlreadyExists meta_Accessor
      GuessObjectGroupVersionKind FormatResourceForCLIWithNamespace
      liveApplier tt (cfg 0) recorder (start [] [] true).
Proof.
  split; [reflexivity |].
  split; [discriminate |].
  split; [reflexivity |].
  split; [reflexivity |].
  intros Hclaim.
  destruct (Hclaim (mkAccessor "cfg") emptyResult internalError
              (mkWorld [] [] true []) eq_refl eq_refl
              ltac:(discriminate) eq_refl) as [Herr _].
  discriminate Herr.
Qed.

(** With other data on the same failing fetch the comparison reports a
    change and Apply goes on to Update; what comes back is the update
    error, and an UpdateFailed warning is recorded. *)
Example Apply_updates_after_fetch_error :
  run liveApplier (cfg 7) (start [] [] true)
    = ((Some emptyResult, true, internalError),
       mkSt (mkWorld [] [] true [("Warning", "ConfigMapUpdateFailed")])
            [CallGet "cfg"; CallCompare (cfg 7) emptyResult;
             CallUpdate (ConfigMap "" 7);
             CallWarningf "ConfigMapUpdateFailed" "Failed to update %s: %v"
               [ArgString "configmap/cfg"; ArgError internalError]]).
Proof. reflexivity. Qed.

(** C4 as stated fails: the cache has no "cfg", the server is down, and
    Create hands back the empty result object with an internal error; Apply
    returns that object, not nil. *)
Lemma create_failure_returns_nil_fails :
  ~ create_failure_returns_nil IsNotFound IsAlreadyExists meta_Accessor
      GuessObjectGroupVersionKind FormatResourceForCLIWithNamespace
      cachedApplier tt (cfg 7) recorder (start [] [] true).
Proof.
  intros Hclaim.
  pose proof (Hclaim (mkAccessor "cfg") nilObject notFound
                (mkWorld [] [] true []) emptyResult internalError
                (mkWorld [] [] true []) eq_refl eq_refl eq_refl eq_refl
                ltac:(discriminate) eq_refl) as Hnil.
  discriminate Hnil.
Qed.

End DemoRuns.

(** ** The general theorems at work on the concrete instance *)

Section Witnesses.

Import Demo.

Local Abbreviation cfg n := (ConfigMap "cfg" n).
Local Abbreviation up c sv := (mkWorld c sv false []).

(** An object without metadata: nothing is called. *)
Lemma Apply_accessor_error_witness :
  run cachedApplier (Unknown "blob") (start [] [] false)
    = ((None, false, Some errNotObject), start [] [] false).
Proof.
  exact (Apply_accessor_error IsNotFound IsAlreadyExists meta_Accessor
           GuessObjectGroupVersionKind FormatResourceForCLIWithNamespace
           cachedApplier tt (Unknown "blob") recorder (start [] [] false)
           errNotObject eq_refl).
Defined.

(** Nothing cached, nothing on the server: "cfg" is created. *)
Lemma Apply_not_found_creates_once_witness :
  run cachedApplier (cfg 7) (start [] [] false)
    = ((Some (cfg 7), true, None),
       mkSt (mkWorld [] [cfg 7] false [("Normal", "ConfigMapCreated")])
            [CallGet "cfg"; CallCreate (cfg 7);
             CallEventf "ConfigMapCreated" "Created %s because it was missing"
               [ArgString "configmap/cfg"]]).
Proof.
  exact (proj2
           (Apply_not_found_creates_once IsNotFound IsAlreadyExists
              meta_Accessor GuessObjectGroupVersionKind
              FormatResourceForCLIWithNamespace eq_refl
              cachedApplier tt (cfg 7) recorder (start [] [] false)
              (mkAccessor "cfg") nilObject notFound (up [] [])
              (cfg 7) None (up [] [cfg 7])
              eq_refl eq_refl eq_refl eq_refl)
           eq_refl).
Defined.

(** A stale cache: the server already holds "cfg". *)
Lemma Apply_create_already_exists_witness :
  run cachedApplier (cfg 7) (start [] [cfg 3] false)
    = ((Some (cfg 7), false, None),
       mkSt (up [] [cfg 3]) [CallGet "cfg"; CallCreate (cfg 7)]).
Proof.
  exact (Apply_create_already_exists IsNotFound IsAlreadyExists
           meta_Accessor GuessObjectGroupVersionKind
           FormatResourceForCLIWithNamespace
           cachedApplier tt (cfg 7) recorder (start [] [cfg 3] false)
           (mkAccessor "cfg") nilObject notFound (up [] [cfg 3])
           emptyResult alreadyExists (up [] [cfg 3])
           eq_refl eq_refl eq_refl eq_refl eq_refl).
Defined.

(** The server is down when Create is attempted. *)
Lemma Apply_create_failed_witness :
  run cachedApplier (cfg 7) (start [] [] true)
    = ((Some emptyResult, true, internalError),
       mkSt (mkWorld [] [] true [("Warning", "ConfigMapCreateFailed")])
            [CallGet "cfg"; CallCreate (cfg 7);
             CallWarningf "ConfigMapCreateFailed" "Failed to create %s: %v"
               [ArgString "configmap/cfg"; ArgError internalError]]).
Proof.
  exact (Apply_create_failed IsNotFound IsAlreadyExists
           meta_Accessor GuessObjectGroupVersionKind
           FormatResourceForCLIWithNamespace
           cachedApplier tt (cfg 7) recorder (start [] [] true)
           (mkAccessor "cfg") nilObject notFound (mkWorld [] [] true [])
           emptyResult (StatusError StatusReasonInternalError)
           (mkWorld [] [] true [])
           eq_refl eq_refl eq_refl eq_refl eq_refl).
Defined.

(** Cache and requirement agree. *)
Lemma Apply_found_unchanged_witness :
  run cachedApplier (cfg 7) (start [cfg 7] [cfg 7] false)
    = ((Some (cfg 7), false, None),
       mkSt (up [cfg 7] [cfg 7])
            [CallGet "cfg"; CallCompare (cfg 7) (cfg 7)]).
Proof.
  exact (Apply_found_unchanged IsNotFound IsAlreadyExists
           meta_Accessor GuessObjectGroupVersionKind
           FormatResourceForCLIWithNamespace eq_refl
           cachedApplier tt (cfg 7) recorder (start [cfg 7] [cfg 7] false)
           (mkAccessor "cfg") (cfg 7) (up [cfg 7] [cfg 7]) (cfg 7)
           eq_refl eq_refl eq_refl).
Defined.

(** The data differ: "cfg" is updated on the server. *)
Lemma Apply_found_changed_updates_once_witness :
  run cachedApplier (cfg 7) (start [cfg 3] [cfg 3] false)
    = ((Some (cfg 7), true, None),
       mkSt (mkWorld [cfg 3] [cfg 7] false [("Normal", "ConfigMapUpdated")])
            [CallGet "cfg"; CallCompare (cfg 7) (cfg 3); CallUpdate (cfg 7);
             CallEventf "ConfigMapUpdated" ("Updated %s:" ++ newline ++ "%s")
               [ArgString "configmap/cfg"]]).
Proof.
  exact (proj2
           (Apply_found_changed_updates_once IsNotFound IsAlreadyExists
              meta_Accessor GuessObjectGroupVersionKind
              FormatResourceForCLIWithNamespace eq_refl
              cachedApplier tt (cfg 7) recorder (start [cfg 3] [cfg 3] false)
              (mkAccessor "cfg") (cfg 3) (up [cfg 3] [cfg 3])
              (cfg 7) (cfg 7) None (up [cfg 3] [cfg 7])
              eq_refl eq_refl eq_refl eq_refl)
           eq_refl).
Defined.

(** The data differ and the server is down. *)
Lemma Apply_update_failed_witness :
  run cachedApplier (cfg 7) (start [cfg 3] [cfg 3] true)
    = ((Some emptyResult, true, internalError),
       mkSt (mkWorld [cfg 3] [cfg 3] true [("Warning", "ConfigMapUpdateFailed")])
            [CallGet "cfg"; CallCompare (cfg 7) (cfg 3); CallUpdate (cfg 7);
             CallWarningf "ConfigMapUpdateFailed" "Failed to update %s: %v"
               [ArgString "configmap/cfg"; ArgError internalError]]).
Proof.
  exact (Apply_update_failed IsNotFound IsAlreadyExists
           meta_Accessor GuessObjectGroupVersionKind
           FormatResourceForCLIWithNamespace
           cachedApplier tt (cfg 7) recorder (start [cfg 3] [cfg 3] true)
           (mkAccessor "cfg") (cfg 3) None (mkWorld [cfg 3] [cfg 3] true [])
           (cfg 7) emptyResult (StatusError StatusReasonInternalError)
           (mkWorld [cfg 3] [cfg 3] true [])
           eq_refl eq_refl eq_refl eq_refl eq_refl).
Defined.

(** The cached object has data 7 and the requirement too: what comes back
    is the cached object. *)
Lemma Apply_unchanged_is_existing_witness :
  fst (fst (fst (run cachedApplier (ConfigMap "cfg" 7)
                   (start [ConfigMap "cfg" 7] [] false))))
    = Some (ConfigMap "cfg" 7).
Proof.
  exact (Apply_unchanged_is_existing IsNotFound IsAlreadyExists
           meta_Accessor GuessObjectGroupVersionKind
           FormatResourceForCLIWithNamespace
           cachedApplier tt (cfg 7) recorder (start [cfg 7] [] false)
           (mkAccessor "cfg") (cfg 7) None (up [cfg 7] [])
           (fst (fst (fst (run cachedApplier (cfg 7) (start [cfg 7] [] false)))))
           None
           (mkSt (up [cfg 7] []) [CallGet "cfg"; CallCompare (cfg 7) (cfg 7)])
           compareData_contract eq_refl eq_refl eq_refl eq_refl).
Defined.

End Witnesses.


(** ** What every run of Apply looks like *)

Section ApplyRuns.

Context {T Err Ctx World : Type}.
Variable IsNotFound : option Err -> bool.
Variable IsAlreadyExists : option Err -> bool.
Variable meta_Accessor : T -> metav1_Object + Err.
Variable GuessObjectGroupVersionKind : T -> GroupVersionKind.
Variable FormatResourceForCLIWithNamespace : T -> string.

Local Abbreviation ApplyG :=
  (Apply (T:=T) (Err:=Err) (Context:=Ctx) (World:=World)
     IsNotFound IsAlreadyExists meta_Accessor
     GuessObjectGroupVersionKind FormatResourceForCLIWithNamespace).
Local Abbreviation KindOf x := (Kind (GuessObjectGroupVersionKind x)).
Local Abbreviation Format := FormatResourceForCLIWithNamespace.

Implicit Types (a : applier T Err Ctx World) (ctx : Ctx) (required : T)
  (recorder : Recorder Err World) (s : St T Err World).

Ltac unfold_run :=
  unfold result_object, result_changed, result_error, final_state,
    Apply, bind, ret, call_Get, call_Create, call_Update, call_compare,
    call_Eventf, call_Warningf, logged, Sprintf_reason; simpl.

Ltac tidy_log := rewrite <- ?app_assoc; simpl.

(** One goal per path through Apply: accessor failure, the three outcomes
    of Create, no change, and the two outcomes of Update. *)
Ltac every_path a required :=
  unfold_run;
  destruct (meta_Accessor required) as [acc | accErr]; simpl;
  [ destruct (Get _ _ _) as [[existing err] w1]; simpl;
    destruct (IsNotFound err); simpl;
    [ destruct (Create _ _ _ _ _) as [[actual createErr] w2]; simpl;
      destruct (IsAlreadyExists createErr); [| destruct createErr]; simpl
    | destruct (compare a required existing) as [merged modified];
      destruct modified; simpl;
      [ destruct (Update _ _ _ _ _) as [[updated updateErr] w2]; simpl;
        destruct updateErr; simpl
      | ] ]
  | ].

(** Names the calls a path added to the log. *)
Ltac give_log :=
  first [ exists []; split; [symmetry; apply app_nil_r |]
        | eexists; split; [tidy_log; reflexivity |] ].


(** X2: Apply reports changed=true exactly when it emitted a notification:
    one recorder call when changed is true, none when it is false. *)
Theorem Apply_changed_iff_notified a ctx required recorder s :
  exists new,
    calls (final_state (ApplyG a ctx required recorder s)) = calls s ++ new /\
    invocations is_notification new
      = if result_changed (ApplyG a ctx required recorder s) then 1 else 0.
Proof.
  every_path a required.
  all: give_log.
  all: reflexivity.
Qed.

(** X3: past the accessor, a returned error always comes with exactly one
    warning and a nil error with none; a normal event is emitted exactly
    when changed=true is returned with a nil error. *)
Theorem Apply_error_iff_warning a ctx required recorder s :
  exists new,
    calls (final_state (ApplyG a ctx required recorder s)) = calls s ++ new /\
    invocations is_Warningf new
      = match meta_Accessor required,
              result_error (ApplyG a ctx required recorder s) with
        | inl _, Some _ => 1
        | _, _ => 0
        end /\
    invocations is_Eventf new
      = if result_changed (ApplyG a ctx required recorder s)
        then match result_error (ApplyG a ctx required recorder s) with
             | None => 1
             | Some _ => 0
             end
        else 0.
Proof.
  every_path a required.
  all: give_log.
  all: split; reflexivity.
Qed.

(** X4: the calls of a run come in one of seven orders: none; Get, Create;
    Get, Create and a notification; Get, compare; Get, compare, Update and a
    notification.  So the fetch comes first, a write never precedes the
    comparison, and a notification only ever follows a write. *)
Theorem Apply_trace_shape a ctx required recorder s :
  exists new,
    calls (final_state (ApplyG a ctx required recorder s)) = calls s ++ new /\
    trace_shape new = true.
Proof.
  every_path a required.
  all: give_log.
  all: reflexivity.
Qed.

(** X5: an error returned together with changed=false can only be the
    accessor error: then the object is nil and the state, world and log, is
    exactly the one Apply started from. *)
Theorem Apply_error_unchanged_untouched a ctx required recorder s obj e s' :
  ApplyG a ctx required recorder s = ((obj, false, Some e), s') ->
  meta_Accessor required = inr e /\ obj = None /\ s' = s.
Proof.
  every_path a required; intros H; try discriminate H.
  injection H as <- <- <-. repeat split; reflexivity.
Qed.

(** X6: once the fetch is not classified as not-found, its error plays no
    part: Apply behaves exactly as with a getter that returned the same
    object and the same world with any other such error, the nil error
    included. *)
Theorem Apply_found_path_ignores_fetch_error
    a (g' : Getter T Err World) ctx required recorder s
    acc existing err err' w1 :
  meta_Accessor required = inl acc ->
  Get (getter a) (GetName acc) (world s) = ((existing, err), w1) ->
  Get g' (GetName acc) (world s) = ((existing, err'), w1) ->
  IsNotFound err = false ->
  IsNotFound err' = false ->
  ApplyG a ctx required recorder s
    = ApplyG (NewApplier _ _ _ _ g' (client a) (compare a))
        ctx required recorder s.
Proof.
  intros Hacc Hget Hget' Hnf Hnf'.
  unfold Apply, NewApplier, bind, call_Get. simpl.
  rewrite Hacc. rewrite Hget, Hget'. simpl.
  rewrite Hnf, Hnf'. reflexivity.
Qed.

(** X7: Apply called again after a successful create is a no-op when the
    getter now returns an object the comparison function is satisfied with:
    the second call makes a Get and a compare, no write and no notification,
    and returns changed=false with the nil error. *)
Theorem Apply_again_after_create
    a ctx required recorder s acc existing err w1 actual w2
    existing2 w3 merged :
  IsNotFound None = false ->
  IsAlreadyExists None = false ->
  meta_Accessor required = inl acc ->
  Get (getter a) (GetName acc) (world s) = ((existing, err), w1) ->
  IsNotFound err = true ->
  Create (client a) ctx required CreateOptions_empty w1
    = ((actual, None), w2) ->
  Get (getter a) (GetName acc)
      (Eventf recorder (KindOf required ++ "Created")
         "Created %s because it was missing" [ArgString (Format actual)] w2)
    = ((existing2, None), w3) ->
  compare a required existing2 = (merged, false) ->
  bind _ _ _ (ApplyG a ctx required recorder)
       (fun _ => ApplyG a ctx required recorder) s
    = ((Some merged, false, None),
       mkSt w3
         (calls s ++ [CallGet (GetName acc); CallCreate required;
                      CallEventf (KindOf required ++ "Created")
                        "Created %s because it was missing"
                        [ArgString (Format actual)];
                      CallGet (GetName acc);
                      CallCompare required existing2])).
Proof.
  intros Hnil Haenil Hacc Hget Hnf Hcreate Hget2 Hcmp.
  unfold_run. rewrite Hacc. simpl.
  rewrite Hget. simpl. rewrite Hnf. simpl.
  rewrite Hcreate. simpl. rewrite Haenil. simpl.
  rewrite Hget2. simpl. rewrite Hnil. simpl.
  rewrite Hcmp. simpl. tidy_log. reflexivity.
Qed.

(** X8: a notification whose format has more verbs than it is given
    arguments is emitted exactly when Update was called and succeeded (the
    Updated event: two verbs, one argument); every other notification has as
    many arguments as verbs. *)
Theorem Apply_verbs_mismatch_iff_updated a ctx required recorder s :
  exists new,
    calls (final_state (ApplyG a ctx required recorder s)) = calls s ++ new /\
    existsb (fun c => negb (verbs_match_args c)) new
      = (Nat.eqb (invocations is_Update new) 1
         && match result_error (ApplyG a ctx required recorder s) with
            | None => true
            | Some _ => false
            end).
Proof.
  every_path a required.
  all: give_log.
  all: reflexivity.
Qed.

(** X9: whatever path is taken, Get is only given the name of the required
    object, Create only the required object, the comparison function only
    the required object and the object the getter returned, and Update only
    the object the comparison function produced. *)
Theorem Apply_call_arguments
    a ctx required recorder s acc existing err w1 :
  meta_Accessor required = inl acc ->
  Get (getter a) (GetName acc) (world s) = ((existing, err), w1) ->
  exists new,
    calls (final_state (ApplyG a ctx required recorder s)) = calls s ++ new /\
    Forall (call_arguments_from required existing
              (fst (compare a required existing)) (GetName acc)) new.
Proof.
  intros Hacc Hget. unfold_run. rewrite Hacc. simpl. rewrite Hget. simpl.
  destruct (IsNotFound err); simpl.
  - destruct (Create _ _ _ _ _) as [[actual createErr] w2]; simpl.
    destruct (IsAlreadyExists createErr); [| destruct createErr]; simpl;
      give_log; repeat constructor.
  - destruct (compare a required existing) as [merged modified]; simpl.
    destruct modified; simpl.
    + destruct (Update _ _ _ _ _) as [[updated updateErr] w2]; simpl.
      destruct updateErr; simpl; give_log; repeat constructor.
    + give_log; repeat constructor.
Qed.

(** X10: changed=true means exactly one write was attempted, a Create or an
    Update; changed=false means no Update was attempted. *)
Theorem Apply_changed_counts_writes a ctx required recorder s :
  exists new,
    calls (final_state (ApplyG a ctx required recorder s)) = calls s ++ new /\
    if result_changed (ApplyG a ctx required recorder s)
    then invocations is_Create new + invocations is_Update new = 1
    else invocations is_Update new = 0.
Proof.
  every_path a required.
  all: give_log.
  all: reflexivity.
Qed.

(** X11: every notification agrees with the result: a warning has reason
    <Kind>CreateFailed or <Kind>UpdateFailed, names the required object and
    carries exactly the error Apply returns; a normal event has reason
    <Kind>Created or <Kind>Updated, names the object Apply returns, and
    comes with the nil error. *)
Theorem Apply_notifications_match_result a ctx required recorder s :
  exists new,
    calls (final_state (ApplyG a ctx required recorder s)) = calls s ++ new /\
    Forall (notification_matches_result (KindOf required) Format required
              (result_object (ApplyG a ctx required recorder s))
              (result_error (ApplyG a ctx required recorder s))) new.
Proof.
  every_path a required.
  all: give_log.
  all: repeat (apply Forall_cons; [simpl |]); try apply Forall_nil.
  all: try exact I.
  all: split; [first [left; reflexivity | right; reflexivity] |].
  all: split; [first [reflexivity | discriminate] |].
  all: first [reflexivity | eexists; split; reflexivity].
Qed.

End ApplyRuns.

(** ** The run theorems at work on the concrete instance *)

Section RunWitnesses.

Import Demo.

Local Abbreviation cfg n := (ConfigMap "cfg" n).
Local Abbreviation applyAt :=
  (Apply IsNotFound IsAlreadyExists meta_Accessor
     GuessObjectGroupVersionKind FormatResourceForCLIWithNamespace).

(** An object without metadata: the error comes back with changed=false and
    nothing has moved. *)
Lemma Apply_error_unchanged_untouched_witness :
  meta_Accessor (Unknown "blob") = inr errNotObject /\
  (None : option Object) = None /\
  start [] [] false = start [] [] false.
Proof.
  exact (Apply_error_unchanged_untouched IsNotFound IsAlreadyExists
           meta_Accessor GuessObjectGroupVersionKind
           FormatResourceForCLIWithNamespace
           cachedApplier tt (Unknown "blob") recorder (start [] [] false)
           None errNotObject (start [] [] false) eq_refl).
Defined.

(** The live getter on a server that is down, against a getter that hands
    back the same empty object with the nil error: the runs coincide. *)
Lemma Apply_found_path_ignores_fetch_error_witness :
  run liveApplier (cfg 7) (start [] [] true)
    = applyAt
        (NewApplier _ _ _ _
           (mkGetter _ _ _ (fun _ w => ((emptyResult, None), w)))
           apiClient compareData)
        tt (cfg 7) recorder (start [] [] true).
Proof.
  exact (Apply_found_path_ignores_fetch_error IsNotFound IsAlreadyExists
           meta_Accessor GuessObjectGroupVersionKind
           FormatResourceForCLIWithNamespace
           liveApplier
           (mkGetter _ _ _ (fun _ w => ((emptyResult, None), w)))
           tt (cfg 7) recorder (start [] [] true)
           (mkAccessor "cfg") emptyResult internalError None
           (mkWorld [] [] true [])
           eq_refl eq_refl eq_refl eq_refl eq_refl).
Defined.

(** An empty server read live: the first call creates "cfg", the second
    finds it and leaves it alone. *)
Lemma Apply_again_after_create_witness :
  bind _ _ _ (run liveApplier (cfg 7)) (fun _ => run liveApplier (cfg 7))
       (start [] [] false)
    = ((Some (cfg 7), false, None),
       mkSt (mkWorld [] [cfg 7] false [("Normal", "ConfigMapCreated")])
            [CallGet "cfg"; CallCreate (cfg 7);
             CallEventf "ConfigMapCreated" "Created %s because it was missing"
               [ArgString "configmap/cfg"];
             CallGet "cfg"; CallCompare (cfg 7) (cfg 7)]).
Proof.
  exact (Apply_again_after_create IsNotFound IsAlreadyExists
           meta_Accessor GuessObjectGroupVersionKind
           FormatResourceForCLIWithNamespace
           liveApplier tt (cfg 7) recorder (start [] [] false)
           (mkAccessor "cfg") emptyResult notFound (mkWorld [] [] false [])
           (cfg 7) (mkWorld [] [cfg 7] false [])
           (cfg 7) (mkWorld [] [cfg 7] false [("Normal", "ConfigMapCreated")])
           (cfg 7)
           eq_refl eq_refl eq_refl eq_refl eq_refl eq_refl eq_refl eq_refl).
Defined.

(** The data differ: Update is given the merged object [cfg 7], the
    comparison function the required and the cached object. *)
Lemma Apply_call_arguments_witness :
  exists new,
    calls (final_state (run cachedApplier (cfg 7) (start [cfg 3] [cfg 3] false)))
      = [] ++ new /\
    Forall (call_arguments_from (cfg 7) (cfg 3) (cfg 7) "cfg") new.
Proof.
  exact (Apply_call_arguments IsNotFound IsAlreadyExists
           meta_Accessor GuessObjectGroupVersionKind
           FormatResourceForCLIWithNamespace
           cachedApplier tt (cfg 7) recorder (start [cfg 3] [cfg 3] false)
           (mkAccessor "cfg") (cfg 3) None (mkWorld [cfg 3] [cfg 3] false [])
           eq_refl eq_refl).
Defined.

End RunWitnesses.
